(** * The code-generator factory of [codegen/code_generator_factory.h]

    [CreateCodeGenerator] asks an [ExprVisitor] which backend a batch of
    gandiva expressions needs, switches on the integer the visitor stored
    and builds the generator of that backend with [std::make_shared].

    The function runs in a small memory: the heap of generator objects with
    the number of shared pointers that own each of them, the caller's
    [std::shared_ptr<CodeGenerator>] that [out] points to, and the rest of
    the process state, which the body never names and only the code it
    calls can change. *)

From Stdlib Require Import ZArith String List Lia.
From stdpp Require Import base option gmap.

Local Open Scope string_scope.
Local Open Scope Z_scope.

(** ** [arrow::Status] *)

Module StatusCode.

Inductive t : Type :=
| OK | OutOfMemory | KeyError | TypeError | Invalid | IOError
| CapacityError | IndexError | UnknownError | NotImplemented
| SerializationError.

End StatusCode.

Module Status.

Record t : Type := Make { code : StatusCode.t; message : string }.

(* status.ok() *)
Definition ok (s : t) : bool :=
  match code s with StatusCode.OK => true | _ => false end.

(* arrow::Status::OK() *)
Definition OK : t := Make StatusCode.OK "".

(* arrow::Status::TypeError(msg) *)
Definition TypeError (msg : string) : t := Make StatusCode.TypeError msg.

End Status.

(** ** Memory *)

(* The address of an object built by std::make_shared. *)
Definition loc : Type := positive.

(* std::shared_ptr<CodeGenerator>: nullptr or the address of the object. *)
Definition handle : Type := option loc.
Definition nullptr : handle := None.

(* A local [int] declared without initialiser holds no definite value until
   something is stored into it; reading it before that is undefined. *)
Definition int_cell : Type := option Z.

(* What a call does: it returns, or its behaviour is undefined. *)
Inductive outcome (A : Type) : Type :=
| Returns (a : A)
| Undefined.
Arguments Returns {A} a.
Arguments Undefined {A}.

(* switch (cell) { ... }: the scrutinee is read, then the cases are tried. *)
Definition read_int {A : Type} (c : int_cell) (k : Z -> outcome A) : outcome A :=
  match c with
  | Some v => k v
  | None => Undefined
  end.

(** ** A visitor after the design document *)

Module Classifier.

(** Modelled from the spec: [ExprVisitor::create], declared in
    codegen/expr_visitor.h, whose text is not among the sources. Section
    4.1 of the design gives its contract, [classify(expressions) ->
    (BackendTag, Status)]: the batch is inspected through the functions its
    expressions use and gets one tag as a whole, NativeVectorized before
    JitCompiled before Extended, or fails with a TypeError when no backend
    covers the whole batch. The design does not say what the visitor leaves
    behind its [int*] argument when it fails; the one below stores a code
    of its own for "unclassified". It serves as a sample visitor: the
    statements about the factory hold for every visitor. *)

(* An expression tree, as far as classification looks into it. *)
#[local] Set Warnings "-register-all".
Inductive Node : Type :=
| FieldNode (name : string)
| LiteralNode (value : Z)
| FunctionNode (name : string) (children : list Node).

Fixpoint functions (n : Node) : list string :=
  match n with
  | FieldNode _ => []
  | LiteralNode _ => []
  | FunctionNode f children => f :: flat_map functions children
  end.

Inductive BackendTag : Type :=
| NativeVectorized | JitCompiled | Extended | Unclassified.

Section Registries.

(* The function registries of the three backends. *)
Variables native jit extended : string -> bool.
(* The integer each tag is handed over as. *)
Variables ARROW_COMPUTE GANDIVA COMPUTE_EXT UNCLASSIFIED : Z.
(* The text of the classification failure. *)
Variable reason : string.

Definition native_only (e : Node) : bool := forallb native (functions e).

Definition jit_expressible (e : Node) : bool := forallb jit (functions e).

Definition extended_only (f : string) : bool :=
  extended f && negb (native f) && negb (jit f).

Definition uses_extended (e : Node) : bool :=
  existsb extended_only (functions e).

(* Every function of the expression is in some registry. *)
Definition covered (e : Node) : bool :=
  forallb (fun f => native f || jit f || extended f) (functions e).

Definition classify (expressions : list Node) : BackendTag * Status.t :=
  if forallb native_only expressions then (NativeVectorized, Status.OK)
  else if forallb jit_expressible expressions then (JitCompiled, Status.OK)
  else if existsb uses_extended expressions && forallb covered expressions
  then (Extended, Status.OK)
  else (Unclassified, Status.TypeError reason).

Definition tag_code (tag : BackendTag) : Z :=
  match tag with
  | NativeVectorized => ARROW_COMPUTE
  | JitCompiled => GANDIVA
  | Extended => COMPUTE_EXT
  | Unclassified => UNCLASSIFIED
  end.

(* A visitor with the signature [create(exprs, int* out)]: the code of the
   tag is stored through [out], the status is returned. *)
Definition create (exprs : list Node) (out : int_cell) : Status.t * int_cell :=
  let '(tag, status) := classify exprs in
  (status, Some (tag_code tag)).

End Registries.

End Classifier.

(** ** Sample batches *)

Module Sample.

Import Classifier.

(* A field of a schema: name and type. *)
Definition Field : Type := (string * string)%type.

Definition schema : list Field := [("a", "int32"); ("b", "int32")].

Definition native (f : string) : bool := String.eqb f "add".
Definition jit (f : string) : bool :=
  String.eqb f "add" || String.eqb f "if_else".
Definition extended (f : string) : bool := String.eqb f "custom_udf".

(* a + b *)
Definition sum_expr : Node :=
  FunctionNode "add" [FieldNode "a"; FieldNode "b"].
(* if_else(a, a + b, b) *)
Definition branch_expr : Node :=
  FunctionNode "if_else" [FieldNode "a"; sum_expr; FieldNode "b"].
(* custom_udf(a) *)
Definition udf_expr : Node := FunctionNode "custom_udf" [FieldNode "a"].
(* undefined_function(a) *)
Definition unknown_expr : Node :=
  FunctionNode "undefined_function" [FieldNode "a"].

Definition sum_type : list Field := [("sum", "int32")].

(* The visitor above with these registries; the labels are 1, 2 and 3, and
   0 stands for "unclassified". *)
Definition create : list Node -> int_cell -> Status.t * int_cell :=
  Classifier.create native jit extended 1 2 3 0 "No backend for the batch.".

(* A visitor that has stored the tag of the expressions seen so far when it
   meets a function it does not know, and returns the failure. *)
Definition create_failing_late (exprs : list Node) (out : int_cell)
  : Status.t * int_cell :=
  (Status.TypeError "Unknown function.", Some 1).

(* A visitor that returns its failure before it has stored anything. *)
Definition create_failing_early (exprs : list Node) (out : int_cell)
  : Status.t * int_cell :=
  (Status.TypeError "Unknown function.", out).

(* Code that leaves the rest of the state alone. *)
Definition quiet {A W : Type} (x : A) (w : W) : W := w.

(* Code that writes a line to a log, the newest line first. *)
Definition log {A : Type} (line : string) (x : A) (w : list string)
  : list string :=
  line :: w.

End Sample.

(** ** The factory *)

Section Factory.

(** The arrow and gandiva types are those of the two libraries; the factory
    only hands the pointers on. *)
Variable SchemaPtr : Type.      (* std::shared_ptr<arrow::Schema> *)
Variable ExpressionPtr : Type.  (* std::shared_ptr<gandiva::Expression> *)
Variable FieldPtr : Type.       (* std::shared_ptr<arrow::Field> *)

(** The rest of the process state: global variables, streams. *)
Variable World : Type.

(** The case labels: integer constants defined in the headers included. A
    switch tries them as below when they are pairwise different, which C++
    requires of the labels of one switch. *)
Variables ARROW_COMPUTE GANDIVA COMPUTE_EXT : Z.

(** The three concrete classes. Their constructors are in the headers of
    the backends; an object is recorded as the class that was instantiated
    together with the three constructor arguments, which it keeps for its
    lifetime (section 4.3 of the design). *)
Inductive CodeGenerator : Type :=
| ArrowComputeCodeGenerator
    (schema_ptr : SchemaPtr) (exprs_vector : list ExpressionPtr)
    (ret_types : list FieldPtr)
| GandivaCodeGenerator
    (schema_ptr : SchemaPtr) (exprs_vector : list ExpressionPtr)
    (ret_types : list FieldPtr)
| ComputeExtCodeGenerator
    (schema_ptr : SchemaPtr) (exprs_vector : list ExpressionPtr)
    (ret_types : list FieldPtr).

Record Memory : Type := Mem {
  heap : gmap loc CodeGenerator;  (* the generator objects alive *)
  use_count : gmap loc nat;       (* the shared pointers that own each one *)
  out : handle;                   (* the caller's handle, [*out] *)
  world : World                   (* everything else *)
}.

(** [ExprVisitor::create(exprs, int* out)], of codegen/expr_visitor.h. The
    visitor is a local object, new at every call; [create] is given the
    batch and the cell behind its [int*] argument, and gives back its
    status and the cell as it leaves it. What it does besides to the rest
    of the state is [create_effect]. *)
Variable create : list ExpressionPtr -> int_cell -> Status.t * int_cell.
Variable create_effect : list ExpressionPtr -> World -> World.

(** What the constructor of a generator and its destructor, whose texts are
    with the backends, do to the rest of the state. *)
Variable constructor_effect : CodeGenerator -> World -> World.
Variable destructor_effect : CodeGenerator -> World -> World.

(* The end of one owner of the object [*out] points to. With other owners
   left the count goes down by one; the last owner destroys the object. *)
Definition release (m : Memory) : Memory :=
  match out m with
  | None => m
  | Some l0 =>
      match use_count m !! l0 with
      | Some (S (S n)) =>
          Mem (heap m) (<[l0 := S n]> (use_count m)) (out m) (world m)
      | _ =>
          Mem (delete l0 (heap m)) (delete l0 (use_count m)) (out m)
              (match heap m !! l0 with
               | Some g0 => destructor_effect g0 (world m)
               | None => world m
               end)
      end
  end.

(* *out = p; where [p] is a temporary: the handle lets go of the object it
   held and takes over [p]. *)
Definition assign (p : handle) (m : Memory) : Memory :=
  let r := release m in
  Mem (heap r) (use_count r) p (world r).

(* *out = std::make_shared<T>(...); std::make_shared runs first: the
   constructor has run, and the address is one that is free while the
   object [*out] holds is still alive. The assignment then releases that
   object, and [*out] is the one owner of the new one. The new object is
   entered last, so that a handle that points to no object cannot take it
   away; [assign_new_in_order] below shows that this is the same as
   entering it first whenever the handle is null or points to an object. *)
Definition assign_new (g : CodeGenerator) (m : Memory) : Memory :=
  let l := fresh (dom (heap m)) in
  let constructed :=
    Mem (heap m) (use_count m) (out m) (constructor_effect g (world m)) in
  let r := assign (Some l) constructed in
  Mem (<[l := g]> (heap r)) (<[l := 1%nat]> (use_count r)) (out r) (world r).

(* The same statement with the steps in the order they are run: the
   temporary owns the new object, already on the heap, when the assignment
   releases the old one. *)
Definition make_shared_then_assign (g : CodeGenerator) (m : Memory) : Memory :=
  let l := fresh (dom (heap m)) in
  let temporary :=
    Mem (<[l := g]> (heap m)) (<[l := 1%nat]> (use_count m)) (out m)
        (constructor_effect g (world m)) in
  assign (Some l) temporary.

(* *out = nullptr; *)
Definition assign_null (m : Memory) : Memory :=
  assign nullptr m.

Definition CreateCodeGenerator
    (schema_ptr : SchemaPtr)
    (exprs_vector : list ExpressionPtr)
    (ret_types : list FieldPtr)
    (m : Memory) : outcome (Status.t * Memory) :=
  let codegen_type : int_cell := None in
  let '(status, codegen_type) := create exprs_vector codegen_type in
  let m :=
    Mem (heap m) (use_count m) (out m)
        (create_effect exprs_vector (world m)) in
  read_int codegen_type (fun tag =>
    let '(m, status) :=
      if tag =? ARROW_COMPUTE then
        (assign_new
           (ArrowComputeCodeGenerator schema_ptr exprs_vector ret_types) m,
         status)
      else if tag =? GANDIVA then
        (assign_new
           (GandivaCodeGenerator schema_ptr exprs_vector ret_types) m,
         status)
      else if tag =? COMPUTE_EXT then
        (assign_new
           (ComputeExtCodeGenerator schema_ptr exprs_vector ret_types) m,
         status)
      else
        (assign_null m, Status.TypeError "Unrecognized expression type.")
    in
    Returns (status, m)).

(** *** Vocabulary of the statements *)


(* The tag is one of the three case labels. *)
Definition recognized (tag : Z) : Prop :=
  tag = ARROW_COMPUTE \/ tag = GANDIVA \/ tag = COMPUTE_EXT.

(* The object is an instance of one of the three classes, built from the
   given arguments. *)
Definition built_from
    (schema_ptr : SchemaPtr) (exprs_vector : list ExpressionPtr)
    (ret_types : list FieldPtr) (g : CodeGenerator) : Prop :=
  g = ArrowComputeCodeGenerator schema_ptr exprs_vector ret_types \/
  g = GandivaCodeGenerator schema_ptr exprs_vector ret_types \/
  g = ComputeExtCodeGenerator schema_ptr exprs_vector ret_types.

(* The address whose object has [*out] as its last owner, if there is one:
   an assignment to [*out] destroys that object. *)
Definition last_owned (m : Memory) : option loc :=
  match out m with
  | Some l0 =>
      match use_count m !! l0 with
      | Some (S (S _)) => None
      | _ => Some l0
      end
  | None => None
  end.

(* The generator an assignment to [*out] destroys. *)
Definition destroyed (m : Memory) : option CodeGenerator :=
  match last_owned m with
  | Some l0 => heap m !! l0
  | None => None
  end.

(* The heap an assignment to [*out] leaves of the objects it found. *)
Definition released_heap (m : Memory) : gmap loc CodeGenerator :=
  match last_owned m with
  | Some l0 => delete l0 (heap m)
  | None => heap m
  end.

(* Every object of [m'] was an object of [m]: none is new. *)
Definition nothing_new (m m' : Memory) : Prop :=
  forall l g, heap m' !! l = Some g -> heap m !! l = Some g.

(* [m'] has one new object, [g], at an address [l] that was free in [m];
   the caller's handle points to it and is its one owner; every other
   object of [m'] was an object of [m]. *)
Definition allocated (m m' : Memory) (l : loc) (g : CodeGenerator) : Prop :=
  heap m !! l = None /\
  out m' = Some l /\
  heap m' !! l = Some g /\
  use_count m' !! l = Some 1%nat /\
  (forall l' g', heap m' !! l' = Some g' ->
                 l' = l \/ heap m !! l' = Some g').

(* What the code called does to the rest of the state, in the order of the
   calls: the visitor, the constructor of the generator built, if any, and
   the destructor of the generator destroyed, if any. *)
Definition callee_effects
    (exprs_vector : list ExpressionPtr)
    (constructed gone : option CodeGenerator) (w : World) : World :=
  let w := create_effect exprs_vector w in
  let w := match constructed with
           | Some g => constructor_effect g w
           | None => w
           end in
  match gone with
  | Some g0 => destructor_effect g0 w
  | None => w
  end.

(** ** Properties of the factory *)

Implicit Types (g : CodeGenerator) (h : gmap loc CodeGenerator).
Implicit Types (m : Memory) (l : loc) (status st : Status.t) (tag : Z).

Lemma recognized_dec tag : {recognized tag} + {~ recognized tag}.
Proof.
  unfold recognized.
  destruct (Z.eq_dec tag ARROW_COMPUTE); [left; tauto |].
  destruct (Z.eq_dec tag GANDIVA); [left; tauto |].
  destruct (Z.eq_dec tag COMPUTE_EXT); [left; tauto |].
  right; tauto.
Qed.

(** *** The release *)

Lemma heap_release m : heap (release m) = released_heap m.
Proof.
  unfold release, released_heap, last_owned.
  destruct (out m) as [l0 |]; [| reflexivity].
  destruct (use_count m !! l0) as [[| [| n]] |]; reflexivity.
Qed.

Lemma world_release m :
  world (release m) = match destroyed m with
                      | Some g0 => destructor_effect g0 (world m)
                      | None => world m
                      end.
Proof.
  unfold release, destroyed, last_owned.
  destruct (out m) as [l0 |]; [| reflexivity].
  destruct (use_count m !! l0) as [[| [| n]] |]; reflexivity.
Qed.

Lemma released_heap_lookup m l g :
  released_heap m !! l = Some g -> heap m !! l = Some g.
Proof.
  unfold released_heap. destruct (last_owned m) as [l0 |]; [| done].
  rewrite lookup_delete_Some. tauto.
Qed.

Lemma released_heap_keeps m l g :
  heap m !! l = Some g -> last_owned m <> Some l ->
  released_heap m !! l = Some g.
Proof.
  unfold released_heap. intros Hl Hkeep.
  destruct (last_owned m) as [l0 |]; [| done].
  rewrite lookup_delete_ne; [done | congruence].
Qed.

Lemma released_heap_gone m l0 :
  last_owned m = Some l0 -> released_heap m !! l0 = None.
Proof.
  unfold released_heap. intros ->. apply lookup_delete_eq.
Qed.

Lemma last_owned_out m l0 : last_owned m = Some l0 -> out m = Some l0.
Proof.
  unfold last_owned. destruct (out m) as [l |]; [| discriminate].
  destruct (use_count m !! l) as [[| [| n]] |]; congruence.
Qed.

Lemma last_owned_sole m l0 :
  out m = Some l0 -> use_count m !! l0 = Some 1%nat -> last_owned m = Some l0.
Proof. unfold last_owned. by intros -> ->. Qed.

Lemma use_count_release_other m l :
  out m <> Some l -> use_count (release m) !! l = use_count m !! l.
Proof.
  unfold release. intros Hne.
  destruct (out m) as [l0 |]; [| reflexivity].
  assert (l0 <> l) by congruence.
  destruct (use_count m !! l0) as [[| [| n]] |]; simpl;
    by rewrite ?lookup_delete_ne, ?lookup_insert_ne.
Qed.

Lemma fresh_free h : h !! fresh (dom h) = None.
Proof. apply (not_elem_of_dom (D := gset loc)), is_fresh. Qed.

Lemma released_heap_fresh m : released_heap m !! fresh (dom (heap m)) = None.
Proof.
  destruct (released_heap m !! fresh (dom (heap m))) as [g |] eqn:Hl; [| done].
  apply released_heap_lookup in Hl. rewrite fresh_free in Hl. discriminate.
Qed.

(** *** The two assignments *)

Lemma assign_new_heap g m :
  heap (assign_new g m) = <[fresh (dom (heap m)) := g]> (released_heap m).
Proof.
  unfold assign_new, assign. simpl. by rewrite heap_release.
Qed.

Lemma assign_new_out g m : out (assign_new g m) = Some (fresh (dom (heap m))).
Proof. reflexivity. Qed.

Lemma assign_new_count g m :
  use_count (assign_new g m) !! fresh (dom (heap m)) = Some 1%nat.
Proof. unfold assign_new, assign. simpl. apply lookup_insert_eq. Qed.

Lemma assign_new_world g m :
  world (assign_new g m)
  = match destroyed m with
    | Some g0 => destructor_effect g0 (constructor_effect g (world m))
    | None => constructor_effect g (world m)
    end.
Proof.
  unfold assign_new, assign. simpl. by rewrite world_release.
Qed.

Lemma assign_new_allocated g m :
  allocated m (assign_new g m) (fresh (dom (heap m))) g.
Proof.
  split; [apply fresh_free |]. split; [reflexivity |].
  rewrite assign_new_heap.
  split; [apply lookup_insert_eq |]. split; [apply assign_new_count |].
  intros l' g' Hl'.
  destruct (decide (l' = fresh (dom (heap m)))) as [-> | Hne]; [by left |].
  right. rewrite lookup_insert_ne in Hl' by done.
  by apply released_heap_lookup.
Qed.

Lemma assign_new_size g m :
  size (heap (assign_new g m)) = S (size (released_heap m)).
Proof.
  rewrite assign_new_heap.
  apply map_size_insert_None, released_heap_fresh.
Qed.

Lemma assign_null_heap m : heap (assign_null m) = released_heap m.
Proof. unfold assign_null, assign. simpl. apply heap_release. Qed.

Lemma assign_null_world m :
  world (assign_null m) = match destroyed m with
                          | Some g0 => destructor_effect g0 (world m)
                          | None => world m
                          end.
Proof. unfold assign_null, assign. simpl. apply world_release. Qed.

Lemma assign_null_nothing_new m : nothing_new m (assign_null m).
Proof.
  intros l g. rewrite assign_null_heap. apply released_heap_lookup.
Qed.

Lemma assign_new_count_other g m l :
  out m <> Some l -> l <> fresh (dom (heap m)) ->
  use_count (assign_new g m) !! l = use_count m !! l.
Proof.
  intros Ho Hl. unfold assign_new, assign. simpl.
  rewrite lookup_insert_ne by done.
  by rewrite use_count_release_other.
Qed.

(** For a handle that is null or points to an object on the heap, the two
    orders of the steps give the same memory. *)
Lemma assign_new_in_order g m :
  (forall l0, out m = Some l0 -> is_Some (heap m !! l0)) ->
  assign_new g m = make_shared_then_assign g m.
Proof.
  intros Hvalid.
  unfold assign_new, make_shared_then_assign, assign, release. simpl.
  destruct (out m) as [l0 |] eqn:Ho; [| reflexivity].
  assert (Hne : fresh (dom (heap m)) <> l0).
  { intros <-. destruct (Hvalid _ eq_refl) as [g0 Hg0].
    rewrite fresh_free in Hg0. discriminate. }
  rewrite !lookup_insert_ne by done.
  destruct (use_count m !! l0) as [[| [| n]] |]; simpl;
    rewrite ?delete_insert_ne, ?lookup_insert_ne by done;
    try reflexivity.
  by rewrite insert_insert_ne.
Qed.

(** An assignment to [*out] keeps every object but the one it destroys. *)
Lemma assign_new_keeps g m l' g' :
  heap m !! l' = Some g' -> last_owned m <> Some l' ->
  heap (assign_new g m) !! l' = Some g'.
Proof.
  intros Hl' Hkeep. rewrite assign_new_heap.
  rewrite lookup_insert_ne.
  - by apply released_heap_keeps.
  - intros <-. rewrite fresh_free in Hl'. discriminate.
Qed.

Lemma assign_new_destroys g m l0 g0 :
  last_owned m = Some l0 -> heap m !! l0 = Some g0 ->
  heap (assign_new g m) !! l0 = None.
Proof.
  intros Hlast Hl0. rewrite assign_new_heap.
  rewrite lookup_insert_ne.
  - by apply released_heap_gone.
  - intros <-. rewrite fresh_free in Hl0. discriminate.
Qed.

Lemma assign_null_keeps m l' g' :
  heap m !! l' = Some g' -> last_owned m <> Some l' ->
  heap (assign_null m) !! l' = Some g'.
Proof. rewrite assign_null_heap. apply released_heap_keeps. Qed.

Lemma assign_null_destroys m l0 :
  last_owned m = Some l0 -> heap (assign_null m) !! l0 = None.
Proof. rewrite assign_null_heap. apply released_heap_gone. Qed.

Lemma allocated_lookup m m' l g : allocated m m' l g -> heap m' !! l = Some g.
Proof. unfold allocated. tauto. Qed.

Lemma allocated_out m m' l g : allocated m m' l g -> out m' = Some l.
Proof. unfold allocated. tauto. Qed.

Lemma allocated_free m m' l g : allocated m m' l g -> heap m !! l = None.
Proof. unfold allocated. tauto. Qed.

Section Call.

Variable schema_ptr : SchemaPtr.
Variable exprs_vector : list ExpressionPtr.
Variable ret_types : list FieldPtr.

Local Abbreviation call :=
  (CreateCodeGenerator schema_ptr exprs_vector ret_types).
Local Abbreviation Arrow :=
  (ArrowComputeCodeGenerator schema_ptr exprs_vector ret_types).
Local Abbreviation Gandiva :=
  (GandivaCodeGenerator schema_ptr exprs_vector ret_types).
Local Abbreviation Ext :=
  (ComputeExtCodeGenerator schema_ptr exprs_vector ret_types).
Local Abbreviation built := (built_from schema_ptr exprs_vector ret_types).
Local Abbreviation unrecognized_status :=
  (Status.TypeError "Unrecognized expression type.").
(* The memory when [nodeVisitor.create] has come back. *)
Local Abbreviation visited m :=
  (Mem (heap m) (use_count m) (out m) (create_effect exprs_vector (world m))).

(** The switch reads an indeterminate value exactly when the classifier has
    stored nothing. *)
Lemma call_undefined_iff m :
  call m = Undefined <-> (create exprs_vector None).2 = None.
Proof.
  unfold CreateCodeGenerator.
  destruct (create exprs_vector None) as [status [tag |]]; simpl.
  - split; [| discriminate].
    destruct (tag =? ARROW_COMPUTE); [discriminate |].
    destruct (tag =? GANDIVA); [discriminate |].
    destruct (tag =? COMPUTE_EXT); discriminate.
  - tauto.
Qed.

Lemma call_arrow status :
  create exprs_vector None = (status, Some ARROW_COMPUTE) ->
  forall m, call m = Returns (status, assign_new Arrow (visited m)).
Proof.
  intros E m. unfold CreateCodeGenerator. rewrite E. simpl.
  by rewrite Z.eqb_refl.
Qed.



Lemma call_default status tag :
  create exprs_vector None = (status, Some tag) ->
  ~ recognized tag ->
  forall m, call m = Returns (unrecognized_status, assign_null (visited m)).
Proof.
  intros E N m. unfold CreateCodeGenerator. rewrite E. simpl.
  unfold recognized in N.
  rewrite (proj2 (Z.eqb_neq tag ARROW_COMPUTE)) by tauto.
  rewrite (proj2 (Z.eqb_neq tag GANDIVA)) by tauto.
  by rewrite (proj2 (Z.eqb_neq tag COMPUTE_EXT)) by tauto.
Qed.

(** A recognized tag runs one assignment of a new object, that of the first
    case whose label it equals, and leaves the classifier's status alone;
    which object is built does not depend on the memory the call starts
    in. *)
Lemma call_recognized status tag :
  create exprs_vector None = (status, Some tag) ->
  recognized tag ->
  exists g, built g /\
            forall m, call m = Returns (status, assign_new g (visited m)).
Proof.
  intros E R. unfold CreateCodeGenerator, built_from. rewrite E. simpl.
  destruct (tag =? ARROW_COMPUTE) eqn:E1; [eauto |].
  destruct (tag =? GANDIVA) eqn:E2; [eauto 6 |].
  destruct (tag =? COMPUTE_EXT) eqn:E3; [eauto 6 |].
  exfalso. apply Z.eqb_neq in E1, E2, E3. unfold recognized in R. tauto.
Qed.

(** The visitor changes neither the heap nor the handle. *)
Lemma visited_allocated g m :
  allocated m (assign_new g (visited m)) (fresh (dom (heap m))) g.
Proof. exact (assign_new_allocated g (visited m)). Qed.

Lemma visited_nothing_new m : nothing_new m (assign_null (visited m)).
Proof. exact (assign_null_nothing_new (visited m)). Qed.

(** A call started with [o2] in the output variable and an object at [l1]
    that has one owner: the object and its owner are left alone unless
    [o2] is that owner. *)
Lemma call_and_sole_owner g m l1 g1 (o2 : handle) (w : World) :
  heap m !! l1 = Some g1 ->
  use_count m !! l1 = Some 1%nat ->
  (o2 <> Some l1 ->
   heap (assign_new g (Mem (heap m) (use_count m) o2 w)) !! l1 = Some g1 /\
   use_count (assign_new g (Mem (heap m) (use_count m) o2 w)) !! l1
     = Some 1%nat) /\
  (o2 = Some l1 ->
   heap (assign_new g (Mem (heap m) (use_count m) o2 w)) !! l1 = None).
Proof.
  intros Hl1 Hc1. split.
  - intros Hne. split.
    + apply assign_new_keeps; [exact Hl1 |].
      intros Hlast. by apply last_owned_out in Hlast.
    + rewrite assign_new_count_other; [exact Hc1 | exact Hne |].
      simpl. intros ->. rewrite fresh_free in Hl1. discriminate.
  - intros ->. apply (assign_new_destroys _ _ _ g1); [| exact Hl1].
    by apply last_owned_sole.
Qed.

(** *** The claims about the dispatch *)


(** C2. When the classifier has stored a tag that is none of the three case
    labels, the call returns the status TypeError with the message
    "Unrecognized expression type.", the caller's handle is null, and no
    object has been built: every generator of the memory it leaves was
    there before. *)
Theorem C2_unrecognized_tag_gives_null_and_TypeError status tag m :
  create exprs_vector None = (status, Some tag) ->
  ~ recognized tag ->
  exists st m',
    call m = Returns (st, m') /\
    out m' = nullptr /\
    Status.code st = StatusCode.TypeError /\
    Status.message st = "Unrecognized expression type." /\
    nothing_new m m'.
Proof.
  intros E N. eexists _, _. split.
  - apply (call_default _ _ E N).
  - repeat (split; [reflexivity |]). apply visited_nothing_new.
Qed.



(** C5. For a batch that is not empty and that the classifier tags
    ARROW_COMPUTE with a status that is ok, the call returns a handle that
    is not null; it points to an ArrowComputeCodeGenerator. *)
Theorem C5_native_batch_gets_a_handle status m :
  exprs_vector <> [] ->
  create exprs_vector None = (status, Some ARROW_COMPUTE) ->
  Status.ok status = true ->
  exists st m' l,
    call m = Returns (st, m') /\
    out m' = Some l /\
    out m' <> nullptr /\
    heap m' !! l = Some Arrow.
Proof.
  intros _ E _.
  pose proof (visited_allocated Arrow m) as Ha.
  exists status, (assign_new Arrow (visited m)), (fresh (dom (heap m))).
  pose proof (allocated_out _ _ _ _ Ha) as Ho.
  split; [apply (call_arrow _ E) |]. split; [exact Ho |]. split.
  - rewrite Ho. discriminate.
  - by eapply allocated_lookup.
Qed.

(** C7. With a recognized tag the status returned is the one the classifier
    returned; with any other tag it is the new TypeError. So the status
    returned differs from the classifier's only on the default branch. *)
Theorem C7_status_is_the_classifiers_unless_default status tag m :
  create exprs_vector None = (status, Some tag) ->
  exists st m',
    call m = Returns (st, m') /\
    (recognized tag -> st = status) /\
    (~ recognized tag -> st = unrecognized_status) /\
    (st <> status -> ~ recognized tag).
Proof.
  intros E. destruct (recognized_dec tag) as [R | N].
  - destruct (call_recognized _ _ E R) as (g & _ & Hcall).
    exists status, (assign_new g (visited m)). split; [apply Hcall |].
    split; [done |]. split; [tauto | congruence].
  - eexists _, _. split; [apply (call_default _ _ E N) |].
    split; [tauto |]. split; [done | auto].
Qed.

(** C8, as amended. Two successive calls with the same arguments return the
    same status; [o2] is what the output variable of the second call holds
    when it starts, the handle the first call has written if it is the same
    variable. When the tag of the batch is recognized, each call returns a
    handle to an object it has allocated at an address that was free, the
    two handles are different, each is the one owner of its object, and the
    two objects are equal as values, so they have the same class and the
    same constructor arguments. The second call leaves the first object
    and its owner alone, unless it is given the variable that holds the
    first handle: then the assignment releases the first object. When the
    tag is not recognized, both calls return the null handle. *)
Theorem C8_two_calls_with_the_same_arguments status tag m (o2 : handle) :
  create exprs_vector None = (status, Some tag) ->
  exists st m1 m2,
    call m = Returns (st, m1) /\
    call (Mem (heap m1) (use_count m1) o2 (world m1)) = Returns (st, m2) /\
    ((recognized tag /\
      exists l1 l2 g,
        out m1 = Some l1 /\ out m2 = Some l2 /\ l1 <> l2 /\
        heap m !! l1 = None /\ heap m1 !! l2 = None /\
        heap m1 !! l1 = Some g /\ heap m2 !! l2 = Some g /\ built g /\
        use_count m1 !! l1 = Some 1%nat /\ use_count m2 !! l2 = Some 1%nat /\
        (o2 <> Some l1 ->
         heap m2 !! l1 = Some g /\ use_count m2 !! l1 = Some 1%nat) /\
        (o2 = Some l1 -> heap m2 !! l1 = None))
     \/
     (~ recognized tag /\ out m1 = nullptr /\ out m2 = nullptr)).
Proof.
  intros E. destruct (recognized_dec tag) as [R | N].
  - destruct (call_recognized _ _ E R) as (g & Hg & Hcall).
    set (m1 := assign_new g (visited m)).
    set (m1' := Mem (heap m1) (use_count m1) o2 (world m1)).
    set (m2 := assign_new g (visited m1')).
    destruct (visited_allocated g m) as (Hfree1 & Ho1 & Hl1 & Hc1 & _).
    destruct (visited_allocated g m1') as (Hfree2 & Ho2 & Hl2 & Hc2 & _).
    fold m1 in Ho1, Hl1, Hc1. fold m2 in Ho2, Hl2, Hc2.
    exists status, m1, m2.
    split; [apply Hcall |]. split; [apply Hcall |].
    left. split; [exact R |].
    exists (fresh (dom (heap m))), (fresh (dom (heap m1))), g.
    assert (Hne : fresh (dom (heap m)) <> fresh (dom (heap m1))).
    { intros Heq. rewrite Heq in Hl1.
      change (heap m1') with (heap m1) in Hfree2. congruence. }
    do 8 (split; [done |]).
    split; [done |]. split; [done |].
    exact (call_and_sole_owner g m1 _ g o2 _ Hl1 Hc1).
  - exists unrecognized_status, (assign_null (visited m)),
      (assign_null
         (visited (Mem (heap (assign_null (visited m)))
                       (use_count (assign_null (visited m))) o2
                       (world (assign_null (visited m)))))).
    split; [apply (call_default _ _ E N) |].
    split; [apply (call_default _ _ E N) |].
    right. auto.
Qed.

(** C9, as amended. Besides setting the handle, a call changes the heap of
    generators in two ways only: it adds at most one object, which holds
    the schema, the expressions and the return types as they were passed,
    and it destroys the generator the handle held before when the handle
    was its last owner. Every other generator is still there and
    unchanged. The rest of the process state is changed by the code the
    call runs and by nothing else: the visitor, the constructor of the new
    generator, the destructor of the one destroyed. *)
Theorem C9_one_allocation_and_one_release status tag m :
  create exprs_vector None = (status, Some tag) ->
  exists st m',
    call m = Returns (st, m') /\
    (forall l g, heap m !! l = Some g -> last_owned m <> Some l ->
                 heap m' !! l = Some g) /\
    (forall l0 g0, last_owned m = Some l0 -> heap m !! l0 = Some g0 ->
                   heap m' !! l0 = None) /\
    ((exists l g,
         allocated m m' l g /\ built g /\
         world m' = callee_effects exprs_vector (Some g) (destroyed m)
                                   (world m))
     \/
     (nothing_new m m' /\ out m' = nullptr /\
      world m' = callee_effects exprs_vector None (destroyed m) (world m))).
Proof.
  intros E. destruct (recognized_dec tag) as [R | N].
  - destruct (call_recognized _ _ E R) as (g & Hg & Hcall).
    exists status, (assign_new g (visited m)). split; [apply Hcall |].
    split; [intros l g'; apply (assign_new_keeps g (visited m)) |].
    split; [intros l0 g0; apply (assign_new_destroys g (visited m)) |].
    left. exists (fresh (dom (heap m))), g.
    split; [apply visited_allocated |]. split; [exact Hg |].
    by rewrite assign_new_world.
  - exists unrecognized_status, (assign_null (visited m)).
    split; [apply (call_default _ _ E N) |].
    split; [intros l g'; apply (assign_null_keeps (visited m)) |].
    split; [intros l0 g0 Hlast _; by apply (assign_null_destroys (visited m)) |].
    right. split; [apply visited_nothing_new |]. split; [reflexivity |].
    by rewrite assign_null_world.
Qed.

(** C10. Whatever the caller's handle held before the call, the call sets
    it: the handle it leaves is the same for every previous value, and it
    is either null or the address, free before the call, of the generator
    the call has built. *)
Theorem C10_out_is_assigned_on_every_path
    status tag h (c : gmap loc nat) (w : World) :
  create exprs_vector None = (status, Some tag) ->
  exists st (o : handle),
    (o = nullptr \/ exists l, o = Some l /\ h !! l = None) /\
    forall previous : handle,
    exists m',
      call (Mem h c previous w) = Returns (st, m') /\
      out m' = o /\
      (forall l, o = Some l -> exists g, heap m' !! l = Some g /\ built g).
Proof.
  intros E. destruct (recognized_dec tag) as [R | N].
  - destruct (call_recognized _ _ E R) as (g & Hg & Hcall).
    exists status, (Some (fresh (dom h))). split.
    + right. exists (fresh (dom h)). split; [reflexivity | apply fresh_free].
    + intros previous.
      pose proof (visited_allocated g (Mem h c previous w)) as Ha.
      eexists. split; [apply Hcall |]. split; [reflexivity |].
      intros l [= <-]. exists g. split; [| exact Hg].
      exact (allocated_lookup _ _ _ _ Ha).
  - exists unrecognized_status, nullptr. split; [by left |].
    intros previous. eexists. split; [apply (call_default _ _ E N) |].
    split; [reflexivity | discriminate].
Qed.

(** *** Further properties of the dispatch *)

(** X1. The status that comes back is ok exactly when the classifier's was
    ok and the tag is recognized. The handle is null exactly when the tag is
    not recognized. So an ok status always comes with a handle to a
    generator built from the arguments, and a null handle never comes with
    an ok status. *)
Theorem ok_status_iff_classified_and_recognized status tag m :
  create exprs_vector None = (status, Some tag) ->
  exists st m',
    call m = Returns (st, m') /\
    (Status.ok st = true <-> Status.ok status = true /\ recognized tag) /\
    (out m' = nullptr <-> ~ recognized tag) /\
    (Status.ok st = true ->
     exists l g, out m' = Some l /\ heap m' !! l = Some g /\ built g) /\
    (out m' = nullptr -> Status.ok st = false).
Proof.
  intros E. destruct (recognized_dec tag) as [R | N].
  - destruct (call_recognized _ _ E R) as (g & Hg & Hcall).
    pose proof (visited_allocated g m) as Ha.
    pose proof (allocated_out _ _ _ _ Ha) as Ho.
    exists status, (assign_new g (visited m)). split; [apply Hcall |].
    split; [tauto |]. split.
    { rewrite Ho. split; [discriminate | tauto]. }
    split.
    + intros _. exists (fresh (dom (heap m))), g. split; [exact Ho |].
      split; [by eapply allocated_lookup | exact Hg].
    + rewrite Ho. discriminate.
  - exists unrecognized_status, (assign_null (visited m)).
    split; [apply (call_default _ _ E N) |]. simpl.
    split; [split; [discriminate | tauto] |].
    split; [tauto |]. split; [discriminate | reflexivity].
Qed.


(** X3. The factory gives [codegen_type] no value of its own. The call
    returns if and only if the classifier has stored an integer through its
    pointer argument, whatever status it returned; otherwise the switch
    reads an indeterminate [int]. *)
Theorem call_returns_iff_tag_stored m :
  (exists r, call m = Returns r) <->
  (exists tag, (create exprs_vector None).2 = Some tag).
Proof.
  split.
  - intros [r Hr].
    destruct (create exprs_vector None).2 as [tag |] eqn:Hcell; [eauto |].
    pose proof (proj2 (call_undefined_iff m) Hcell). congruence.
  - intros [tag Htag].
    destruct (call m) as [r |] eqn:Hcall; [eauto |].
    pose proof (proj1 (call_undefined_iff m) Hcall). congruence.
Qed.

End Call.

(** X4. The schema and the return types are handed to the constructor and
    never looked at: with another schema and other return types, of any
    length, the same batch gives the same status, a handle that is null in
    the same cases, and as many objects on the heap. In particular a list
    of return types whose length differs from that of the batch is not
    turned down. *)
Theorem schema_and_ret_types_are_not_inspected
    (exprs_vector : list ExpressionPtr)
    (schema_ptr schema_ptr' : SchemaPtr) (ret_types ret_types' : list FieldPtr)
    status tag m :
  create exprs_vector None = (status, Some tag) ->
  exists st m1 m2,
    CreateCodeGenerator schema_ptr exprs_vector ret_types m
      = Returns (st, m1) /\
    CreateCodeGenerator schema_ptr' exprs_vector ret_types' m
      = Returns (st, m2) /\
    (out m1 = nullptr <-> out m2 = nullptr) /\
    size (heap m1) = size (heap m2) /\
    (forall l, out m1 = Some l ->
               exists g, heap m1 !! l = Some g /\
                         built_from schema_ptr exprs_vector ret_types g) /\
    (forall l, out m2 = Some l ->
               exists g, heap m2 !! l = Some g /\
                         built_from schema_ptr' exprs_vector ret_types' g).
Proof.
  intros E. destruct (recognized_dec tag) as [R | N].
  - destruct (call_recognized schema_ptr _ ret_types _ _ E R)
      as (g1 & Hg1 & Hcall1).
    destruct (call_recognized schema_ptr' _ ret_types' _ _ E R)
      as (g2 & Hg2 & Hcall2).
    pose proof (visited_allocated exprs_vector g1 m) as Ha1.
    pose proof (visited_allocated exprs_vector g2 m) as Ha2.
    eexists status, _, _.
    split; [apply Hcall1 |]. split; [apply Hcall2 |].
    rewrite (allocated_out _ _ _ _ Ha1), (allocated_out _ _ _ _ Ha2).
    split; [split; discriminate |].
    split; [by rewrite !assign_new_size |].
    split.
    + intros l [= <-]. exists g1. split; [by eapply allocated_lookup | done].
    + intros l [= <-]. exists g2. split; [by eapply allocated_lookup | done].
  - eexists _, _, _.
    split; [apply (call_default _ _ _ _ _ E N) |].
    split; [apply (call_default _ _ _ _ _ E N) |].
    simpl. split; [tauto |]. split; [reflexivity |].
    split; discriminate.
Qed.

(** X5. Two successive calls, with arguments that may differ: when both
    batches get a recognized tag, the second call allocates at an address
    that is free when it runs, so its handle is not the one the first call
    returned, and the object behind it is built from the arguments of the
    second call. *)
Theorem successive_calls_do_not_alias
    (schema1 schema2 : SchemaPtr) (exprs1 exprs2 : list ExpressionPtr)
    (rets1 rets2 : list FieldPtr) status1 tag1 status2 tag2 m :
  create exprs1 None = (status1, Some tag1) ->
  create exprs2 None = (status2, Some tag2) ->
  recognized tag1 ->
  recognized tag2 ->
  exists m1 m2 l1 l2 g2,
    CreateCodeGenerator schema1 exprs1 rets1 m = Returns (status1, m1) /\
    CreateCodeGenerator schema2 exprs2 rets2 m1 = Returns (status2, m2) /\
    out m1 = Some l1 /\ out m2 = Some l2 /\ l1 <> l2 /\
    heap m !! l1 = None /\ heap m1 !! l2 = None /\
    heap m2 !! l2 = Some g2 /\
    built_from schema2 exprs2 rets2 g2.
Proof.
  intros E1 E2 R1 R2.
  destruct (call_recognized schema1 _ rets1 _ _ E1 R1) as (g1 & Hg1 & Hcall1).
  destruct (call_recognized schema2 _ rets2 _ _ E2 R2) as (g2 & Hg2 & Hcall2).
  pose proof (visited_allocated exprs1 g1 m) as Ha1.
  set (m1 := assign_new g1 _) in Ha1.
  pose proof (visited_allocated exprs2 g2 m1) as Ha2.
  eexists m1, _, (fresh (dom (heap m))), (fresh (dom (heap m1))), g2.
  split; [apply Hcall1 |]. split; [apply Hcall2 |].
  split; [by eapply allocated_out |]. split; [by eapply allocated_out |].
  split.
  { intros Heq. pose proof (allocated_lookup _ _ _ _ Ha1) as H1.
    pose proof (allocated_free _ _ _ _ Ha2) as H2. congruence. }
  split; [by eapply allocated_free |]. split; [by eapply allocated_free |].
  split; [by eapply allocated_lookup | exact Hg2].
Qed.

End Factory.

Arguments Mem {SchemaPtr ExpressionPtr FieldPtr World} heap use_count out world.
Arguments heap {SchemaPtr ExpressionPtr FieldPtr World} m.
Arguments use_count {SchemaPtr ExpressionPtr FieldPtr World} m.
Arguments out {SchemaPtr ExpressionPtr FieldPtr World} m.
Arguments world {SchemaPtr ExpressionPtr FieldPtr World} m.
Arguments ArrowComputeCodeGenerator {SchemaPtr ExpressionPtr FieldPtr}
  schema_ptr exprs_vector ret_types.
Arguments GandivaCodeGenerator {SchemaPtr ExpressionPtr FieldPtr}
  schema_ptr exprs_vector ret_types.
Arguments ComputeExtCodeGenerator {SchemaPtr ExpressionPtr FieldPtr}
  schema_ptr exprs_vector ret_types.
Arguments CreateCodeGenerator {SchemaPtr ExpressionPtr FieldPtr World}
  ARROW_COMPUTE GANDIVA COMPUTE_EXT create create_effect
  constructor_effect destructor_effect schema_ptr exprs_vector ret_types m.
Arguments built_from {SchemaPtr ExpressionPtr FieldPtr}
  schema_ptr exprs_vector ret_types g.
Arguments allocated {SchemaPtr ExpressionPtr FieldPtr World} m m' l g.
Arguments nothing_new {SchemaPtr ExpressionPtr FieldPtr World} m m'.
Arguments last_owned {SchemaPtr ExpressionPtr FieldPtr World} m.
Arguments destroyed {SchemaPtr ExpressionPtr FieldPtr World} m.
Arguments callee_effects {SchemaPtr ExpressionPtr FieldPtr World}
  create_effect constructor_effect destructor_effect
  exprs_vector constructed gone w.

(** ** The statements at the sample batches *)

(* The factory over the sample visitor, with code that leaves the rest of
   the state alone. *)
Local Abbreviation sample_call create :=
  (CreateCodeGenerator (SchemaPtr := list Sample.Field)
                       (FieldPtr := Sample.Field) (World := unit)
                       1 2 3 create Sample.quiet Sample.quiet Sample.quiet).

(* An empty heap, a null handle, nothing else. *)
Local Abbreviation m0 :=
  (@Mem (list Sample.Field) Classifier.Node Sample.Field unit
        ∅ ∅ nullptr tt).

(* A generator from an earlier call. *)
Local Abbreviation earlier :=
  (@GandivaCodeGenerator (list Sample.Field) Classifier.Node Sample.Field
                         Sample.schema [Sample.branch_expr] Sample.sum_type).

(* The caller's handle is the one owner of the earlier generator. *)
Local Abbreviation m_sole :=
  (@Mem (list Sample.Field) Classifier.Node Sample.Field unit
        {[ 1%positive := earlier ]} {[ 1%positive := 1%nat ]}
        (Some 1%positive) tt).

(* The same, with a log for the rest of the state. *)
Local Abbreviation m_sole_logged :=
  (@Mem (list Sample.Field) Classifier.Node Sample.Field (list string)
        {[ 1%positive := earlier ]} {[ 1%positive := 1%nat ]}
        (Some 1%positive) []).

(** The scenarios of the design: a + b is a native batch, custom_udf(a) an
    extended one, and undefined_function(a) is not classified, alone or in
    a batch with custom_udf(a). *)
Example sample_native :
  Sample.create [Sample.sum_expr] None = (Status.OK, Some 1).
Proof. reflexivity. Qed.

Example sample_jit :
  Sample.create [Sample.sum_expr; Sample.branch_expr] None
  = (Status.OK, Some 2).
Proof. reflexivity. Qed.

Example sample_extended :
  Sample.create [Sample.udf_expr] None = (Status.OK, Some 3).
Proof. reflexivity. Qed.

Example sample_unclassified :
  Sample.create [Sample.unknown_expr] None
  = (Status.TypeError "No backend for the batch.", Some 0).
Proof. reflexivity. Qed.

Example sample_not_covered :
  Sample.create [Sample.udf_expr; Sample.unknown_expr] None
  = (Status.TypeError "No backend for the batch.", Some 0).
Proof. reflexivity. Qed.

(** The factory does not give the cell a value of its own: with a visitor
    that fails before it stores, the switch reads an indeterminate [int]. *)
Example failing_before_the_store_is_undefined :
  sample_call Sample.create_failing_early
              Sample.schema [Sample.unknown_expr] Sample.sum_type m0
  = Undefined.
Proof. reflexivity. Qed.

(** A handle that is the last owner of a generator: the assignment of the
    new generator destroys the old one, and so does that of null. *)
Example assignment_destroys_the_last_owned :
  (exists st m',
      sample_call Sample.create
                  Sample.schema [Sample.sum_expr] Sample.sum_type m_sole
      = Returns (st, m') /\
      out m' = Some 2%positive /\
      heap m' !! 1%positive = None /\
      size (heap m') = 1%nat) /\
  (exists st m',
      sample_call Sample.create
                  Sample.schema [Sample.unknown_expr] Sample.sum_type m_sole
      = Returns (st, m') /\
      out m' = nullptr /\
      heap m' !! 1%positive = None /\
      size (heap m') = 0%nat).
Proof.
  split; eexists _, _; (split; [reflexivity |]); repeat split.
Qed.



Lemma C2_witness :
  Sample.create [Sample.unknown_expr] None
    = (Status.TypeError "No backend for the batch.", Some 0) /\
  ~ recognized 1 2 3 0 /\
  exists st m',
    sample_call Sample.create
                Sample.schema [Sample.unknown_expr] Sample.sum_type m_sole
    = Returns (st, m') /\
    out m' = nullptr /\
    Status.code st = StatusCode.TypeError /\
    Status.message st = "Unrecognized expression type." /\
    nothing_new m_sole m'.
Proof.
  assert (E : Sample.create [Sample.unknown_expr] None
              = (Status.TypeError "No backend for the batch.", Some 0))
    by reflexivity.
  assert (N : ~ recognized 1 2 3 0) by (unfold recognized; lia).
  split; [exact E |]. split; [exact N |].
  exact (C2_unrecognized_tag_gives_null_and_TypeError
           _ _ _ unit 1 2 3 Sample.create
           Sample.quiet Sample.quiet Sample.quiet
           Sample.schema [Sample.unknown_expr] Sample.sum_type _ 0 m_sole
           E N).
Defined.




Lemma C5_witness :
  [Sample.sum_expr] <> [] /\
  Sample.create [Sample.sum_expr] None = (Status.OK, Some 1) /\
  Status.ok Status.OK = true /\
  exists st m' l,
    sample_call Sample.create
                        Sample.schema [Sample.sum_expr] Sample.sum_type m0
    = Returns (st, m') /\
    out m' = Some l /\
    out m' <> nullptr /\
    heap m' !! l
      = Some (ArrowComputeCodeGenerator
                Sample.schema [Sample.sum_expr] Sample.sum_type).
Proof.
  assert (NE : [Sample.sum_expr] <> []) by discriminate.
  assert (E : Sample.create [Sample.sum_expr] None = (Status.OK, Some 1))
    by reflexivity.
  assert (K : Status.ok Status.OK = true) by reflexivity.
  repeat (split; [assumption |]).
  exact (C5_native_batch_gets_a_handle
           _ _ _ unit 1 2 3 Sample.create Sample.quiet Sample.quiet Sample.quiet
           Sample.schema [Sample.sum_expr] Sample.sum_type _ m0 NE E K).
Defined.

Lemma C7_witness :
  Sample.create_failing_late [Sample.unknown_expr] None
    = (Status.TypeError "Unknown function.", Some 1) /\
  exists st m',
    sample_call Sample.create_failing_late
                        Sample.schema [Sample.unknown_expr] Sample.sum_type m0
    = Returns (st, m') /\
    (recognized 1 2 3 1 -> st = Status.TypeError "Unknown function.") /\
    (~ recognized 1 2 3 1 ->
     st = Status.TypeError "Unrecognized expression type.") /\
    (st <> Status.TypeError "Unknown function." -> ~ recognized 1 2 3 1).
Proof.
  assert (E : Sample.create_failing_late [Sample.unknown_expr] None
              = (Status.TypeError "Unknown function.", Some 1))
    by reflexivity.
  split; [exact E |].
  exact (C7_status_is_the_classifiers_unless_default
           _ _ _ unit 1 2 3 Sample.create_failing_late Sample.quiet Sample.quiet Sample.quiet
           Sample.schema [Sample.unknown_expr] Sample.sum_type _ 1 m0 E).
Defined.

(** C8, as stated, at two places. At a batch no backend knows both calls
    return the null handle, so the two handles are equal and neither was
    allocated. At a native batch the second call reads the handle the first
    one has written when it is given the same output variable: it destroys
    the first generator, which it leaves alone when it is given another
    variable. *)
Lemma C8_counterexample :
  (exists st m1 m2,
      sample_call Sample.create
                  Sample.schema [Sample.unknown_expr] Sample.sum_type m0
      = Returns (st, m1) /\
      sample_call Sample.create
                  Sample.schema [Sample.unknown_expr] Sample.sum_type m1
      = Returns (st, m2) /\
      out m1 = nullptr /\ out m2 = nullptr /\ out m1 = out m2 /\
      size (heap m2) = 0%nat) /\
  (exists st m1 m2 m2',
      sample_call Sample.create
                  Sample.schema [Sample.sum_expr] Sample.sum_type m0
      = Returns (st, m1) /\
      out m1 = Some 1%positive /\
      sample_call Sample.create
                  Sample.schema [Sample.sum_expr] Sample.sum_type m1
      = Returns (st, m2) /\
      heap m2 !! 1%positive = None /\
      sample_call Sample.create
                  Sample.schema [Sample.sum_expr] Sample.sum_type
                  (Mem (heap m1) (use_count m1) nullptr (world m1))
      = Returns (st, m2') /\
      heap m2' !! 1%positive
        = Some (ArrowComputeCodeGenerator
                  Sample.schema [Sample.sum_expr] Sample.sum_type)).
Proof.
  split.
  - eexists _, _, _. split; [reflexivity |]. split; [reflexivity |].
    repeat split.
  - eexists _, _, _, _. split; [reflexivity |]. split; [reflexivity |].
    split; [reflexivity |]. split; [reflexivity |].
    split; reflexivity.
Qed.

Lemma C8_witness :
  Sample.create [Sample.sum_expr] None = (Status.OK, Some 1) /\
  exists st m1 m2,
    sample_call Sample.create
                Sample.schema [Sample.sum_expr] Sample.sum_type m0
    = Returns (st, m1) /\
    sample_call Sample.create
                Sample.schema [Sample.sum_expr] Sample.sum_type
                (Mem (heap m1) (use_count m1) nullptr (world m1))
    = Returns (st, m2) /\
    ((recognized 1 2 3 1 /\
      exists l1 l2 g,
        out m1 = Some l1 /\ out m2 = Some l2 /\ l1 <> l2 /\
        heap m0 !! l1 = None /\ heap m1 !! l2 = None /\
        heap m1 !! l1 = Some g /\ heap m2 !! l2 = Some g /\
        built_from Sample.schema [Sample.sum_expr] Sample.sum_type g /\
        use_count m1 !! l1 = Some 1%nat /\ use_count m2 !! l2 = Some 1%nat /\
        (nullptr <> Some l1 ->
         heap m2 !! l1 = Some g /\ use_count m2 !! l1 = Some 1%nat) /\
        (nullptr = Some l1 -> heap m2 !! l1 = None))
     \/
     (~ recognized 1 2 3 1 /\ out m1 = nullptr /\ out m2 = nullptr)).
Proof.
  assert (E : Sample.create [Sample.sum_expr] None = (Status.OK, Some 1))
    by reflexivity.
  split; [exact E |].
  exact (C8_two_calls_with_the_same_arguments
           _ _ _ unit 1 2 3 Sample.create
           Sample.quiet Sample.quiet Sample.quiet
           Sample.schema [Sample.sum_expr] Sample.sum_type _ 1 m0 nullptr E).
Defined.

(** C9, as stated, at a handle that is the last owner of a generator and a
    batch no backend knows: nothing is allocated, and the generator that
    was on the heap is gone; its destructor has run. *)
Lemma C9_counterexample :
  heap m_sole_logged !! 1%positive = Some earlier /\
  exists st m',
    CreateCodeGenerator 1 2 3 Sample.create Sample.quiet Sample.quiet
                        (Sample.log "destroyed")
                        Sample.schema [Sample.unknown_expr] Sample.sum_type
                        m_sole_logged
    = Returns (st, m') /\
    out m' = nullptr /\
    heap m' !! 1%positive = None /\
    size (heap m') = 0%nat /\
    world m_sole_logged = [] /\
    world m' = ["destroyed"].
Proof.
  split; [reflexivity |].
  eexists _, _. split; [reflexivity |]. repeat split.
Qed.

Lemma C9_witness :
  Sample.create [Sample.sum_expr; Sample.branch_expr] None
    = (Status.OK, Some 2) /\
  exists st m',
    CreateCodeGenerator 1 2 3 Sample.create
                        (Sample.log "classified") (Sample.log "constructed")
                        (Sample.log "destroyed")
                        Sample.schema [Sample.sum_expr; Sample.branch_expr]
                        (Sample.sum_type ++ Sample.sum_type) m_sole_logged
    = Returns (st, m') /\
    (forall l g, heap m_sole_logged !! l = Some g ->
                 last_owned m_sole_logged <> Some l ->
                 heap m' !! l = Some g) /\
    (forall l0 g0, last_owned m_sole_logged = Some l0 ->
                   heap m_sole_logged !! l0 = Some g0 ->
                   heap m' !! l0 = None) /\
    ((exists l g,
         allocated m_sole_logged m' l g /\
         built_from Sample.schema [Sample.sum_expr; Sample.branch_expr]
                    (Sample.sum_type ++ Sample.sum_type) g /\
         world m' = callee_effects
                      (Sample.log "classified") (Sample.log "constructed")
                      (Sample.log "destroyed")
                      [Sample.sum_expr; Sample.branch_expr]
                      (Some g) (destroyed m_sole_logged)
                      (world m_sole_logged))
     \/
     (nothing_new m_sole_logged m' /\ out m' = nullptr /\
      world m' = callee_effects
                   (Sample.log "classified") (Sample.log "constructed")
                   (Sample.log "destroyed")
                   [Sample.sum_expr; Sample.branch_expr]
                   None (destroyed m_sole_logged) (world m_sole_logged))).
Proof.
  assert (E : Sample.create [Sample.sum_expr; Sample.branch_expr] None
              = (Status.OK, Some 2))
    by reflexivity.
  split; [exact E |].
  exact (C9_one_allocation_and_one_release
           _ _ _ (list string) 1 2 3 Sample.create
           (Sample.log "classified") (Sample.log "constructed")
           (Sample.log "destroyed")
           Sample.schema [Sample.sum_expr; Sample.branch_expr]
           (Sample.sum_type ++ Sample.sum_type) _ 2 m_sole_logged E).
Defined.

(** The log of the call above: the visitor, then the constructor, then the
    destructor of the generator the handle was the last owner of. *)
Example sample_order_of_effects :
  exists st m',
    CreateCodeGenerator 1 2 3 Sample.create
                        (Sample.log "classified") (Sample.log "constructed")
                        (Sample.log "destroyed")
                        Sample.schema [Sample.sum_expr; Sample.branch_expr]
                        (Sample.sum_type ++ Sample.sum_type) m_sole_logged
    = Returns (st, m') /\
    world m' = ["destroyed"; "constructed"; "classified"].
Proof. eexists _, _. split; reflexivity. Qed.

Lemma C10_witness :
  Sample.create [Sample.udf_expr] None = (Status.OK, Some 3) /\
  exists st (o : handle),
    (o = nullptr \/ exists l, o = Some l /\ heap m_sole !! l = None) /\
    forall previous : handle,
    exists m',
      sample_call Sample.create
                  Sample.schema [Sample.udf_expr] Sample.sum_type
                  (Mem (heap m_sole) (use_count m_sole) previous tt)
      = Returns (st, m') /\
      out m' = o /\
      (forall l, o = Some l ->
                 exists g,
                   heap m' !! l = Some g /\
                   built_from Sample.schema [Sample.udf_expr]
                              Sample.sum_type g).
Proof.
  assert (E : Sample.create [Sample.udf_expr] None = (Status.OK, Some 3))
    by reflexivity.
  split; [exact E |].
  exact (C10_out_is_assigned_on_every_path
           _ _ _ unit 1 2 3 Sample.create
           Sample.quiet Sample.quiet Sample.quiet
           Sample.schema [Sample.udf_expr] Sample.sum_type _ 3
           (heap m_sole) (use_count m_sole) tt E).
Defined.

Lemma ok_status_iff_classified_and_recognized_witness :
  Sample.create [Sample.udf_expr] None = (Status.OK, Some 3) /\
  exists st m',
    sample_call Sample.create
                        Sample.schema [Sample.udf_expr] Sample.sum_type m0
    = Returns (st, m') /\
    (Status.ok st = true <-> Status.ok Status.OK = true /\ recognized 1 2 3 3) /\
    (out m' = nullptr <-> ~ recognized 1 2 3 3) /\
    (Status.ok st = true ->
     exists l g,
       out m' = Some l /\ heap m' !! l = Some g /\
       built_from Sample.schema [Sample.udf_expr] Sample.sum_type g) /\
    (out m' = nullptr -> Status.ok st = false).
Proof.
  assert (E : Sample.create [Sample.udf_expr] None = (Status.OK, Some 3))
    by reflexivity.
  split; [exact E |].
  exact (ok_status_iff_classified_and_recognized
           _ _ _ unit 1 2 3 Sample.create Sample.quiet Sample.quiet Sample.quiet
           Sample.schema [Sample.udf_expr] Sample.sum_type _ 3 m0 E).
Defined.


(* One expression, and no return type at all in the second call. *)
Lemma schema_and_ret_types_are_not_inspected_witness :
  Sample.create [Sample.sum_expr] None = (Status.OK, Some 1) /\
  length [Sample.sum_expr] <> length (@nil Sample.Field) /\
  exists st m1 m2,
    sample_call Sample.create
                        Sample.schema [Sample.sum_expr] Sample.sum_type m0
    = Returns (st, m1) /\
    sample_call Sample.create
                        [] [Sample.sum_expr] [] m0
    = Returns (st, m2) /\
    (out m1 = nullptr <-> out m2 = nullptr) /\
    size (heap m1) = size (heap m2) /\
    (forall l, out m1 = Some l ->
               exists g,
                 heap m1 !! l = Some g /\
                 built_from Sample.schema [Sample.sum_expr]
                            Sample.sum_type g) /\
    (forall l, out m2 = Some l ->
               exists g,
                 heap m2 !! l = Some g /\
                 built_from [] [Sample.sum_expr] [] g).
Proof.
  assert (E : Sample.create [Sample.sum_expr] None = (Status.OK, Some 1))
    by reflexivity.
  split; [exact E |]. split; [discriminate |].
  exact (schema_and_ret_types_are_not_inspected
           _ _ _ unit 1 2 3 Sample.create Sample.quiet Sample.quiet Sample.quiet [Sample.sum_expr]
           Sample.schema [] Sample.sum_type [] _ 1 m0 E).
Defined.

Lemma successive_calls_do_not_alias_witness :
  Sample.create [Sample.sum_expr] None = (Status.OK, Some 1) /\
  Sample.create [Sample.udf_expr] None = (Status.OK, Some 3) /\
  recognized 1 2 3 1 /\
  recognized 1 2 3 3 /\
  exists m1 m2 l1 l2 g2,
    sample_call Sample.create
                        Sample.schema [Sample.sum_expr] Sample.sum_type m0
    = Returns (Status.OK, m1) /\
    sample_call Sample.create
                        Sample.schema [Sample.udf_expr] Sample.sum_type m1
    = Returns (Status.OK, m2) /\
    out m1 = Some l1 /\ out m2 = Some l2 /\ l1 <> l2 /\
    heap m0 !! l1 = None /\ heap m1 !! l2 = None /\
    heap m2 !! l2 = Some g2 /\
    built_from Sample.schema [Sample.udf_expr] Sample.sum_type g2.
Proof.
  assert (E1 : Sample.create [Sample.sum_expr] None = (Status.OK, Some 1))
    by reflexivity.
  assert (E2 : Sample.create [Sample.udf_expr] None = (Status.OK, Some 3))
    by reflexivity.
  assert (R1 : recognized 1 2 3 1) by (unfold recognized; lia).
  assert (R2 : recognized 1 2 3 3) by (unfold recognized; lia).
  repeat (split; [assumption |]).
  exact (successive_calls_do_not_alias
           _ _ _ unit 1 2 3 Sample.create Sample.quiet Sample.quiet Sample.quiet
           Sample.schema Sample.schema [Sample.sum_expr] [Sample.udf_expr]
           Sample.sum_type Sample.sum_type _ 1 _ 3 m0 E1 E2 R1 R2).
Defined.
